(** * Math-Verify: the extractive match metric of [math_evaluator/tasks.py]

    A shallow embedding of [multilingual_extractive_match_metric] and of the
    closure [sample_level_fn] it returns, together with the fragments of the
    Python runtime the closure relies on (exceptions, the module logger, the
    built-in [max], argument lists passed by reference). *)

From Stdlib Require Import String List ZArith NArith QArith Qabs Qminmax Qpower.
From Stdlib Require Import Floats Bool Lia Permutation.
Import ListNotations.

Local Open Scope string_scope.
Local Open Scope list_scope.

(** ** Python runtime fragments *)

Module Py.

(** Exceptions.  [ValueError] and [TimeoutError] are the two classes the
    metric itself meets; [OtherException] stands for any other class derived
    from [BaseException], named by its class. *)
Inductive exn : Type :=
| ValueError (msg : string)
| TimeoutError
| OtherException (cls : string) (msg : string).

Inductive result (A : Type) : Type :=
| Ok (a : A)
| Raise (e : exn).
Arguments Ok {A} a.
Arguments Raise {A} e.

Definition is_ok {A} (r : result A) : bool :=
  match r with Ok _ => true | Raise _ => false end.

Definition map_result {A B} (f : A -> B) (r : result A) : result B :=
  match r with Ok a => Ok (f a) | Raise e => Raise e end.

(** A list object owned by the caller is reached through a reference. *)
Definition ref := nat.

(** The part of the interpreter state the metric can observe: the caller's
    list objects, and the records emitted on the module-level [logger]
    (oldest first). *)
Record state : Type := mkState {
  heap : ref -> list string;
  warnings : list string
}.

(** Computations that may raise and that thread the interpreter state.  A
    raise keeps the state reached so far, as in Python. *)
Definition M (A : Type) : Type := state -> result A * state.

Definition ret {A} (a : A) : M A := fun s => (Ok a, s).

Definition bind {A B} (c : M A) (k : A -> M B) : M B :=
  fun s => match c s with
           | (Ok a, s') => k a s'
           | (Raise e, s') => (Raise e, s')
           end.

Definition raise {A} (e : exn) : M A := fun s => (Raise e, s).

Definition lift {A} (r : result A) : M A := fun s => (r, s).

(** [try: body / except: handler] with a bare [except], which catches every
    exception class. *)
Definition try_except {A} (body : M A) (handler : exn -> M A) : M A :=
  fun s => match body s with
           | (Ok a, s') => (Ok a, s')
           | (Raise e, s') => handler e s'
           end.

(** Reading the list object behind a reference. *)
Definition deref (l : ref) : M (list string) := fun s => (Ok (heap s l), s).

(** [logger.warning(msg)] *)
Definition logger_warning (msg : string) : M unit :=
  fun s => (Ok tt, mkState (heap s) (warnings s ++ [msg])).

(** The built-in [max] on a list of floats: [ValueError] on an empty
    argument, otherwise the first maximal item (an item replaces the running
    maximum when it compares greater). *)
Definition max_empty_msg : string := "max() arg is an empty sequence".

Definition max (xs : list float) : result float :=
  match xs with
  | [] => Raise (ValueError max_empty_msg)
  | x :: rest =>
      Ok (fold_left (fun m item => if PrimFloat.ltb m item then item else m) rest x)
  end.

(** Wall-clock time, in milliseconds. *)
Definition time := N.

(** A computation together with the wall-clock time it takes to finish or
    to raise. *)
Definition timed (A : Type) : Type := (result A * time)%type.

Definition tret {A} (a : A) : timed A := (Ok a, 0%N).

Definition tbind {A B} (c : timed A) (k : A -> timed B) : timed B :=
  match c with
  | (Ok a, t) => let (r, t') := k a in (r, (t + t')%N)
  | (Raise e, t) => (Raise e, t)
  end.

(** A list comprehension [[f(x) for x in xs]] whose body takes time and may
    raise. *)
Fixpoint tmap {A B} (f : A -> timed B) (xs : list A) : timed (list B) :=
  match xs with
  | [] => tret []
  | x :: xs' => tbind (f x) (fun y => tbind (tmap f xs') (fun ys => tret (y :: ys)))
  end.

End Py.

Import Py.

Declare Scope py_scope.
Delimit Scope py_scope with py.
Notation "x <- c ;; k" := (bind c (fun x => k))
  (at level 100, c at next level, right associativity) : py_scope.
Notation "c ;;; k" := (bind c (fun _ => k))
  (at level 100, right associativity) : py_scope.

Local Open Scope py_scope.

(** ** Collaborator modules

    [tasks.py] imports its parser, its grader and the [timeout] decorator
    from sibling modules.  The parser and the grader enter the development
    through their interfaces. *)

(** [fallback_mode: Literal["no_fallback", "first_match"]] *)
Inductive FallbackMode : Type := no_fallback | first_match.

(** [.parser]: the extraction targets, the regex compiler and the target
    extractor.  [Expr] is the type of an extracted candidate (a symbolic
    value or a raw string). *)
Class Parser : Type := {
  Expr : Type;
  ExtractionTarget : Type;
  ExprExtractionConfig : ExtractionTarget;
  LatexExtractionConfig : ExtractionTarget;
  Regexes : Type;
  get_extraction_regexes : list ExtractionTarget -> Regexes;
  extract_target_from_pred : string -> Regexes -> FallbackMode -> list Expr
}.

(** [.grader]: [compare_gold_target(gold, target, precision)] receives the
    candidate list of one gold and the candidate list of one prediction. *)
Class Grader (E : Type) : Type := {
  compare_gold_target : list E -> list E -> Z -> bool
}.

(** The rendering of a list of strings inside an f-string. *)
Class Builtins : Type := {
  repr : list string -> string
}.

(** Modelled from the spec: the decorator [timeout] of [.utils], absent from
    the sources at hand.  The decorated call is cut off once its wall-clock
    time exceeds the budget, given in seconds, and then raises; otherwise it
    finishes as the undecorated call does. *)
Definition timeout (seconds : N) {A} (c : timed A) : result A :=
  if (seconds * 1000 <? snd c)%N then Raise TimeoutError else fst c.

(** ** The metric *)

(** The diagnostic component of the returned pair: the list [[]] the
    variable [str_preds] is initialised with, or the pair of rendered lists
    assigned to it. *)
Inductive str_preds_t : Type :=
| EmptyList
| Rendered (golds predictions : list string).

Section Metric.

Context {P : Parser} {G : Grader Expr} {B : Builtins}.

(** The built-in [str] on an extracted candidate: it may be slow on a large
    symbolic value and it may raise, and how long it takes differs from one
    run to the next, so every run is given its own. *)
Variable str : Expr -> timed string.

Variables (gold_extraction_target pred_extraction_target : list ExtractionTarget)
          (aggregation_function : list float -> result float)
          (fallback_mode : FallbackMode)
          (precision : Z).

Definition get_str_preds
    (extracted_predictions extracted_golds : list (list Expr))
  : timed (list string * list string) :=
  tbind (tmap str (concat extracted_golds)) (fun golds =>
  tbind (tmap str (concat extracted_predictions)) (fun predictions =>
  tret (golds, predictions))).

(** [@timeout(2)] *)
Definition get_str_preds_with_timeout
    (extracted_predictions extracted_golds : list (list Expr))
  : result (list string * list string) :=
  timeout 2 (get_str_preds extracted_predictions extracted_golds).

Definition no_gold_msg (golds predictions : list string) : string :=
  ("No gold targets found for at least one gold. Gold: " ++ repr golds
     ++ ", Pred: " ++ repr predictions)%string.

Definition no_pred_msg (golds predictions : list string) : string :=
  ("We did not manage to extract a prediction in the correct format. Gold: "
     ++ repr golds ++ ", Pred: " ++ repr predictions)%string.

Definition timeout_msg : string :=
  "Timeout when adding extracted predictions and golds to specific".

(** The list of per-prediction scores handed to the aggregation function. *)
Definition pred_scores (extracted_golds extracted_predictions : list (list Expr))
  : list float :=
  map (fun pred =>
         if existsb (fun gold => compare_gold_target gold pred precision)
                    extracted_golds
         then 1%float else 0%float)
      extracted_predictions.

Definition sample_level_fn (golds predictions : ref) : M (float * str_preds_t) :=
  let gold_extraction_regexes := get_extraction_regexes gold_extraction_target in
  let pred_extraction_regexes := get_extraction_regexes pred_extraction_target in
  preds <- deref predictions ;;
  let extracted_predictions :=
    map (fun pred => extract_target_from_pred pred pred_extraction_regexes fallback_mode)
        preds in
  gs <- deref golds ;;
  let extracted_golds :=
    map (fun gold => extract_target_from_pred gold gold_extraction_regexes fallback_mode)
        gs in
  (if existsb (fun g => (length g =? 0)%nat) extracted_golds
   then gs' <- deref golds ;;
        preds' <- deref predictions ;;
        raise (ValueError (no_gold_msg gs' preds'))
   else ret tt) ;;;
  (if forallb (fun p => (length p =? 0)%nat) extracted_predictions
   then gs' <- deref golds ;;
        preds' <- deref predictions ;;
        logger_warning (no_pred_msg gs' preds')
   else ret tt) ;;;
  str_preds <-
    try_except
      (r <- lift (get_str_preds_with_timeout extracted_predictions extracted_golds) ;;
       ret (Rendered (fst r) (snd r)))
      (fun _ => logger_warning timeout_msg ;;; ret EmptyList) ;;
  score <- lift (aggregation_function (pred_scores extracted_golds extracted_predictions)) ;;
  ret (score, str_preds).

(** The candidate lists [sample_level_fn] computes from the texts of a list
    object, for the targets of one side. *)
Definition extracted (targets : list ExtractionTarget) (texts : list string)
  : list (list Expr) :=
  map (fun text =>
         extract_target_from_pred text (get_extraction_regexes targets) fallback_mode)
      texts.

End Metric.

(** The scalar component of an outcome (or the exception it raised). *)
Definition scalar {A B} (r : result (A * B) * state) : result A :=
  map_result fst (fst r).

(** [multilingual_extractive_match_metric] returns the closure
    [sample_level_fn] over its five arguments. *)
Definition multilingual_extractive_match_metric
    {P : Parser} {G : Grader Expr} {B : Builtins}
    (str : Expr -> timed string)
    (gold_extraction_target pred_extraction_target : list ExtractionTarget)
    (aggregation_function : list float -> result float)
    (fallback_mode : FallbackMode) (precision : Z)
  : ref -> ref -> M (float * str_preds_t) :=
  sample_level_fn str gold_extraction_target pred_extraction_target
                  aggregation_function fallback_mode precision.

(** The default values of the five arguments. *)
Definition default_extraction_target {P : Parser} : list ExtractionTarget :=
  [ExprExtractionConfig].
Definition default_aggregation_function : list float -> result float := Py.max.
Definition default_fallback_mode : FallbackMode := first_match.
Definition default_precision : Z := 6.

(** The spec's name for the error raised on a gold without candidates; the
    code raises a [ValueError] carrying this message. *)
Definition MissingGoldExtractionError {B : Builtins}
    (golds predictions : list string) : exn :=
  ValueError (no_gold_msg golds predictions).

(** ** A small instance

    A parser over a handful of texts, a grader that compares candidates
    pairwise, and three behaviours of [str]; the statements below are
    exercised on it. *)

Module Sample.

Inductive expr : Type :=
| Number (q : Q)
| Symbol (s : string).

Definition extract (text : string) : list expr :=
  if (text =? "\frac{1}{2}")%string then [Number (1 # 2)]
  else if (text =? "0.5")%string then [Number (5 # 10)]
  else if (text =? "2")%string then [Number 2]
  else if (text =? "x^2")%string then [Symbol "x^2"]
  else [].

#[global] Instance parser : Parser := {|
  Expr := expr;
  ExtractionTarget := bool;
  ExprExtractionConfig := false;
  LatexExtractionConfig := true;
  Regexes := unit;
  get_extraction_regexes := fun _ => tt;
  extract_target_from_pred := fun text _ _ => extract text
|}.

(** The example grader compares two numbers within a tolerance that grows
    with the gold.  It is an example only, not the rule of [.grader]. *)
Definition tolerance (gold : Q) (precision : Z) : Q :=
  if Qeq_bool gold 0
  then inject_Z 10 ^ (- precision)
  else inject_Z 10 ^ (- precision) * Qmax 1 (Qabs gold).

Definition numeric_equivalent (gold pred : Q) (precision : Z) : bool :=
  Qle_bool (Qabs (gold - pred)) (tolerance gold precision).

Definition equivalent (gold target : expr) (precision : Z) : bool :=
  match gold, target with
  | Number g, Number t => numeric_equivalent g t precision
  | Symbol g, Symbol t => (g =? t)%string
  | _, _ => false
  end.

#[global] Instance grader : Grader expr := {|
  compare_gold_target := fun gold target precision =>
    existsb (fun g => existsb (fun t => equivalent g t precision) target) gold
|}.

#[global] Instance builtins : Builtins := {|
  repr := fun l => ("[" ++ String.concat ", " l ++ "]")%string
|}.

Definition render (e : expr) : string :=
  match e with
  | Number q => "number"
  | Symbol s => s
  end.

(** [str] answers within a millisecond. *)
Definition quick_str (e : expr) : timed string := (Ok (render e), 1%N).

(** [str] needs three seconds for every value. *)
Definition slow_str (e : expr) : timed string := (Ok (render e), 3000%N).

(** [str] raises at once. *)
Definition failing_str (e : expr) : timed string :=
  (Raise (OtherException "RecursionError" "maximum recursion depth exceeded"), 0%N).

(** The caller's two list objects, at references 0 and 1. *)
Definition world (golds predictions : list string) : state :=
  mkState (fun r => match r with O => golds | _ => predictions end) [].

Definition metric (str : expr -> timed string)
  : ref -> ref -> M (float * str_preds_t) :=
  multilingual_extractive_match_metric str
    [LatexExtractionConfig] [LatexExtractionConfig; ExprExtractionConfig]
    default_aggregation_function default_fallback_mode default_precision.

End Sample.

(** ** The task definitions

    The dataset filter and the prompt function of the task table.  A dataset
    row is a dictionary read by key; its values are strings, a character
    standing for a code point below 256. *)

Definition row : Type := string -> option string.

Definition KeyError (key : string) : exn := OtherException "KeyError" key.

(** [x[key]] *)
Definition getitem (x : row) (key : string) : result string :=
  match x key with
  | Some v => Ok v
  | None => Raise (KeyError key)
  end.

(** The characters [str.strip()] removes: the code points below 256 on which
    [str.isspace] holds. *)
Definition isspace (c : Ascii.ascii) : bool :=
  let n := Ascii.nat_of_ascii c in
  ((9 <=? n) && (n <=? 13) || (28 <=? n) && (n <=? 32) || (n =? 133) || (n =? 160))%nat.

Fixpoint lstrip (s : string) : string :=
  match s with
  | EmptyString => EmptyString
  | String c s' => if isspace c then lstrip s' else s
  end.

Fixpoint rstrip (s : string) : string :=
  match s with
  | EmptyString => EmptyString
  | String c s' =>
      match rstrip s' with
      | EmptyString => if isspace c then EmptyString else String c EmptyString
      | r => String c r
      end
  end.

(** [s.strip()] *)
Definition strip (s : string) : string := rstrip (lstrip s).

(** Some character of [s] is not whitespace. *)
Definition has_nonspace (s : string) : bool :=
  existsb (fun c => negb (isspace c)) (list_ascii_of_string s).

(** [hf_filter=lambda x: len(x["problem"].strip()) > 0 and
    len(x["solution"].strip()) > 0]; the right operand of [and] is evaluated
    only when the left one holds. *)
Definition hf_filter (x : row) : result bool :=
  match getitem x "problem" with
  | Raise e => Raise e
  | Ok problem =>
      if (0 <? String.length (strip problem))%nat
      then match getitem x "solution" with
           | Raise e => Raise e
           | Ok solution => Ok (0 <? String.length (strip solution))%nat
           end
      else Ok false
  end.

(** The fields [math_prompt_function] gives the [Doc] it builds. *)
Record Doc : Type := mkDoc {
  query : string;
  choices : list string;
  gold_index : Z
}.

Definition newline : string := String (Ascii.ascii_of_nat 10) EmptyString.

(** [math_prompt_function(x, task_name)]: the outcome, and the rows written
    to the standard output by [print(x)]. *)
Definition math_prompt_function (x : row) (task_name : string)
  : result Doc * list row :=
  match getitem x "problem" with
  | Raise e => (Raise e, [])
  | Ok problem =>
      let query :=
        ("Question: " ++ problem ++ newline ++ "Step-by-Step Answer:")%string in
      match getitem x "solution" with
      | Raise e => (Raise e, [])
      | Ok solution =>
          let choices := [solution] in
          (Ok (mkDoc query choices 0), [x])
      end
  end.

(** The wall-clock time a list of [str] calls takes when each call on [e]
    takes [cost e]. *)
Definition total_cost {E} (cost : E -> time) (xs : list E) : time :=
  fold_right (fun e acc => (cost e + acc)%N) 0%N xs.

(** Rows for the examples: a table of key-value pairs read by key. *)
Definition row_of (kvs : list (string * string)) : row :=
  fun key =>
    match find (fun kv => (fst kv =? key)%string) kvs with
    | Some kv => Some (snd kv)
    | None => None
    end.

Example hf_filter_blank_problem :
  hf_filter (row_of [("problem", "   ")]) = Ok false.
Proof. reflexivity. Qed.

Example hf_filter_accepts :
  hf_filter (row_of [("problem", " 1+1? "); ("solution", "2")]) = Ok true.
Proof. reflexivity. Qed.

Example math_prompt_function_query :
  map_result query
    (fst (math_prompt_function (row_of [("problem", "1+1?"); ("solution", "2")]) "math"))
  = Ok ("Question: 1+1?" ++ newline ++ "Step-by-Step Answer:")%string.
Proof. reflexivity. Qed.

Example sample_half :
  Sample.metric Sample.quick_str 0%nat 1%nat (Sample.world ["\frac{1}{2}"] ["0.5"])
  = (Ok (1%float, Rendered ["number"] ["number"]),
     Sample.world ["\frac{1}{2}"] ["0.5"]).
Proof. vm_compute. reflexivity. Qed.

Example sample_dont_know :
  fst (Sample.metric Sample.slow_str 0%nat 1%nat (Sample.world ["x^2"] ["I don't know"]))
  = Ok (0%float, EmptyList).
Proof. vm_compute. reflexivity. Qed.

(** ** Properties of the metric *)

Section MetricLemmas.

Context {P : Parser} {G : Grader Expr} {B : Builtins}.

Variable str : Expr -> timed string.

Variables (gold_extraction_target pred_extraction_target : list ExtractionTarget)
          (aggregation_function : list float -> result float)
          (fallback_mode : FallbackMode)
          (precision : Z).

Abbreviation run :=
  (sample_level_fn str gold_extraction_target pred_extraction_target
                   aggregation_function fallback_mode precision).
Abbreviation golds_of := (extracted fallback_mode gold_extraction_target).
Abbreviation preds_of := (extracted fallback_mode pred_extraction_target).
Abbreviation scores_of := (pred_scores precision).

(** One equation for the whole body: the gold check, the prediction
    warning, the guarded rendering and the aggregation, in that order. *)
Lemma sample_level_fn_eq (golds predictions : ref) (s : state) :
  run golds predictions s =
  let gs := heap s golds in
  let ps := heap s predictions in
  if existsb (fun g => (length g =? 0)%nat) (golds_of gs)
  then (Raise (ValueError (no_gold_msg gs ps)), s)
  else
    let s1 := if forallb (fun p => (length p =? 0)%nat) (preds_of ps)
              then mkState (heap s) (warnings s ++ [no_pred_msg gs ps])
              else s in
    let ds := match get_str_preds_with_timeout str (preds_of ps) (golds_of gs) with
              | Ok r => (Rendered (fst r) (snd r), s1)
              | Raise _ => (EmptyList, mkState (heap s1) (warnings s1 ++ [timeout_msg]))
              end in
    match aggregation_function (scores_of (golds_of gs) (preds_of ps)) with
    | Ok v => (Ok (v, fst ds), snd ds)
    | Raise e => (Raise e, snd ds)
    end.
Proof.
  unfold sample_level_fn, extracted, bind, deref, raise, ret, lift,
    try_except, logger_warning.
  cbn [heap warnings].
  destruct (existsb _ _); [reflexivity|].
  destruct (forallb _ _); cbn [heap warnings];
    destruct (get_str_preds_with_timeout _ _ _); cbn [heap warnings fst snd];
    destruct (aggregation_function _); reflexivity.
Qed.

Lemma existsb_length_nil {A} (l : list (list A)) :
  existsb (fun g => (length g =? 0)%nat) l = true <-> In [] l.
Proof.
  rewrite existsb_exists. split.
  - intros [g [Hin Hlen]]. apply Nat.eqb_eq in Hlen.
    destruct g; [assumption | discriminate].
  - intros Hin. exists []. split; [assumption | reflexivity].
Qed.

Lemma forallb_length_nil {A} (l : list (list A)) :
  forallb (fun p => (length p =? 0)%nat) l = true <-> (forall p, In p l -> p = []).
Proof.
  rewrite forallb_forall. split.
  - intros H p Hin. specialize (H p Hin). apply Nat.eqb_eq in H.
    destruct p; [reflexivity | discriminate].
  - intros H p Hin. rewrite (H p Hin). reflexivity.
Qed.

Lemma in_extracted targets (texts : list string) (c : list Expr) :
  In c (extracted fallback_mode targets texts) <->
  exists text, In text texts /\
    extract_target_from_pred text (get_extraction_regexes targets) fallback_mode = c.
Proof.
  unfold extracted. rewrite in_map_iff. split; intros [t [H1 H2]]; exists t; tauto.
Qed.

(** The gold check passes exactly when every gold has a candidate. *)
Lemma gold_check_false (gs : list string) :
  (forall gold, In gold gs ->
     extract_target_from_pred gold (get_extraction_regexes gold_extraction_target)
       fallback_mode <> []) ->
  existsb (fun g => (length g =? 0)%nat) (golds_of gs) = false.
Proof.
  intros H. apply not_true_is_false. intros Hex.
  apply existsb_length_nil, in_extracted in Hex.
  destruct Hex as [gold [Hin Hnil]]. exact (H gold Hin Hnil).
Qed.

(** The per-prediction score at a position. *)
Lemma pred_scores_nth (eg ep : list (list Expr)) (i : nat) :
  nth_error (scores_of eg ep) i =
  option_map (fun pred =>
                if existsb (fun gold => compare_gold_target gold pred precision) eg
                then 1%float else 0%float)
             (nth_error ep i).
Proof. unfold pred_scores. apply nth_error_map. Qed.

Lemma pred_scores_length (eg ep : list (list Expr)) :
  length (scores_of eg ep) = length ep.
Proof. unfold pred_scores. apply length_map. Qed.

(** The scalar outcome does not depend on the rendering step. *)
Lemma scalar_eq (golds predictions : ref) (s : state) :
  scalar (run golds predictions s) =
  if existsb (fun g => (length g =? 0)%nat) (golds_of (heap s golds))
  then Raise (ValueError (no_gold_msg (heap s golds) (heap s predictions)))
  else aggregation_function
         (scores_of (golds_of (heap s golds)) (preds_of (heap s predictions))).
Proof.
  unfold scalar. rewrite sample_level_fn_eq. cbv zeta.
  destruct (existsb _ (golds_of _)); [reflexivity|].
  destruct (aggregation_function _); reflexivity.
Qed.

(** The call leaves the caller's list objects as they are and only appends
    to the log. *)
Lemma run_frame (golds predictions : ref) (s : state) :
  heap (snd (run golds predictions s)) = heap s /\
  exists w, warnings (snd (run golds predictions s)) = warnings s ++ w.
Proof.
  rewrite sample_level_fn_eq. cbv zeta.
  destruct (existsb _ (golds_of _)).
  - split; [reflexivity|]. exists []. cbn. now rewrite app_nil_r.
  - destruct (forallb _ _);
      destruct (get_str_preds_with_timeout _ _ _);
      destruct (aggregation_function _); cbn [fst snd heap warnings];
      (split; [reflexivity|]);
      rewrite <- ?app_assoc; eexists; try reflexivity;
      symmetry; apply app_nil_r.
Qed.

(** What the call does once the rendering step has raised. *)
Lemma render_failure_run (golds predictions : ref) (s : state) (e : exn) :
  existsb (fun g => (length g =? 0)%nat) (golds_of (heap s golds)) = false ->
  get_str_preds_with_timeout str (preds_of (heap s predictions))
    (golds_of (heap s golds)) = Raise e ->
  fst (run golds predictions s) =
    map_result (fun sc => (sc, EmptyList))
      (aggregation_function
         (scores_of (golds_of (heap s golds)) (preds_of (heap s predictions)))) /\
  exists w, warnings (snd (run golds predictions s)) = w ++ [timeout_msg].
Proof.
  intros Hgold Hraise. rewrite sample_level_fn_eq. cbv zeta.
  rewrite Hgold, Hraise. cbn [fst snd].
  destruct (aggregation_function _); cbn [fst snd map_result warnings];
    (split; [reflexivity | eexists; reflexivity]).
Qed.

Lemma timeout_exceeded {A} (seconds : N) (c : timed A) :
  (seconds * 1000 < snd c)%N -> timeout seconds c = Raise TimeoutError.
Proof.
  intros H. unfold timeout. apply N.ltb_lt in H. rewrite H. reflexivity.
Qed.

Lemma timeout_within {A} (seconds : N) (c : timed A) :
  (snd c <= seconds * 1000)%N -> timeout seconds c = fst c.
Proof.
  intros H. unfold timeout.
  destruct (N.ltb_spec (seconds * 1000) (snd c)); [lia | reflexivity].
Qed.

End MetricLemmas.

Section MetricFacts.

Context {P : Parser} {G : Grader Expr} {B : Builtins}.

Variable str : Expr -> timed string.

Variables (gold_extraction_target pred_extraction_target : list ExtractionTarget)
          (aggregation_function : list float -> result float)
          (fallback_mode : FallbackMode)
          (precision : Z).

Abbreviation run :=
  (sample_level_fn str gold_extraction_target pred_extraction_target
                   aggregation_function fallback_mode precision).
Abbreviation golds_of := (extracted fallback_mode gold_extraction_target).
Abbreviation preds_of := (extracted fallback_mode pred_extraction_target).
Abbreviation scores_of := (pred_scores precision).

(** C2: whenever some gold string yields no candidate, the call raises the
    missing-gold error (a [ValueError] with the "No gold targets found"
    message) to its caller, whatever the predictions are; no value is
    returned and nothing is logged. *)
Theorem missing_gold_raises (golds predictions : ref) (s : state) (gold : string) :
  In gold (heap s golds) ->
  extract_target_from_pred gold (get_extraction_regexes gold_extraction_target)
    fallback_mode = [] ->
  run golds predictions s =
  (Raise (MissingGoldExtractionError (heap s golds) (heap s predictions)), s).
Proof.
  intros Hin Hnil. rewrite sample_level_fn_eq. cbv zeta.
  assert (Hex : existsb (fun g => (length g =? 0)%nat) (golds_of (heap s golds)) = true).
  { apply existsb_length_nil, in_extracted. exists gold. split; assumption. }
  rewrite Hex. reflexivity.
Qed.

(** C1: when the call returns, the scalar is the aggregation function
    applied to a list with one score per prediction, in the order of the
    predictions; the score of a prediction is 1.0 when the grader accepts its
    candidate list against the candidate list of some gold, and 0.0 when it
    accepts it against none. *)
Theorem score_aggregates_matches
    (golds predictions : ref) (s s' : state) (sc : float) (d : str_preds_t) :
  run golds predictions s = (Ok (sc, d), s') ->
  exists scores : list float,
    aggregation_function scores = Ok sc /\
    length scores = length (heap s predictions) /\
    forall (i : nat) (pred : string),
      nth_error (heap s predictions) i = Some pred ->
      let candidates :=
        extract_target_from_pred pred (get_extraction_regexes pred_extraction_target)
          fallback_mode in
      (nth_error scores i = Some 1%float /\
       exists gold, In gold (heap s golds) /\
         compare_gold_target
           (extract_target_from_pred gold
              (get_extraction_regexes gold_extraction_target) fallback_mode)
           candidates precision = true)
      \/
      (nth_error scores i = Some 0%float /\
       forall gold, In gold (heap s golds) ->
         compare_gold_target
           (extract_target_from_pred gold
              (get_extraction_regexes gold_extraction_target) fallback_mode)
           candidates precision = false).
Proof.
  intros Hrun. rewrite sample_level_fn_eq in Hrun. cbv zeta in Hrun.
  destruct (existsb _ (golds_of _)); [discriminate|].
  set (eg := golds_of (heap s golds)) in *.
  set (ep := preds_of (heap s predictions)) in *.
  destruct (aggregation_function (scores_of eg ep)) as [v|e] eqn:Hagg;
    [|discriminate].
  exists (scores_of eg ep). split; [|split].
  - rewrite Hagg. congruence.
  - rewrite pred_scores_length. unfold ep, extracted. apply length_map.
  - intros i pred Hnth candidates.
    assert (Hs : nth_error (scores_of eg ep) i =
                 Some (if existsb (fun g => compare_gold_target g candidates precision) eg
                       then 1%float else 0%float)).
    { rewrite pred_scores_nth. unfold ep, extracted.
      rewrite nth_error_map, Hnth. reflexivity. }
    rewrite Hs.
    destruct (existsb (fun g => compare_gold_target g candidates precision) eg) eqn:Hex.
    + left. split; [reflexivity|].
      apply existsb_exists in Hex. destruct Hex as [g [Hin Hcmp]].
      apply in_extracted in Hin. destruct Hin as [gold [Hin Hg]].
      exists gold. split; [assumption|]. rewrite Hg. exact Hcmp.
    + right. split; [reflexivity|].
      intros gold Hin. apply not_true_is_false. intros Hcmp.
      assert (Hex' : existsb (fun g => compare_gold_target g candidates precision) eg = true).
      { apply existsb_exists. eexists. split; [|exact Hcmp].
        apply in_extracted. exists gold. split; [assumption | reflexivity]. }
      rewrite Hex' in Hex. discriminate.
Qed.

(** C10: whatever exception the rendering step raises, be it the timeout
    or any other, the call catches it: the outcome is that of the
    aggregation function alone, paired with the empty diagnostic component,
    the last record logged is the warning of the handler, and the scalar
    (or the exception of the aggregation) is the one every other behaviour of
    the rendering gives. *)
Theorem render_exception_caught
    (golds predictions : ref) (s : state) (e : exn) :
  (forall gold, In gold (heap s golds) ->
     extract_target_from_pred gold (get_extraction_regexes gold_extraction_target)
       fallback_mode <> []) ->
  get_str_preds_with_timeout str (preds_of (heap s predictions))
    (golds_of (heap s golds)) = Raise e ->
  fst (run golds predictions s) =
    map_result (fun sc => (sc, EmptyList))
      (aggregation_function
         (scores_of (golds_of (heap s golds)) (preds_of (heap s predictions)))) /\
  (exists w, warnings (snd (run golds predictions s)) = w ++ [timeout_msg]) /\
  forall str' : Expr -> timed string,
    scalar (sample_level_fn str' gold_extraction_target pred_extraction_target
              aggregation_function fallback_mode precision golds predictions s)
    = scalar (run golds predictions s).
Proof.
  intros Hgold Hraise.
  apply gold_check_false in Hgold.
  destruct (render_failure_run str _ _ aggregation_function _ precision
              golds predictions s e Hgold Hraise) as [Hout Hlog].
  split; [exact Hout | split; [exact Hlog|]].
  intros str'. rewrite !scalar_eq. reflexivity.
Qed.

(** C4: the rendering runs under a budget of two seconds; when it takes
    longer, the decorated call raises the timeout, the call returns the
    empty diagnostic component and logs the warning, and its scalar is the
    one of a run in which the rendering succeeded. *)
Theorem render_timeout_keeps_score
    (golds predictions : ref) (s : state) :
  (forall gold, In gold (heap s golds) ->
     extract_target_from_pred gold (get_extraction_regexes gold_extraction_target)
       fallback_mode <> []) ->
  (2 * 1000 < snd (get_str_preds str (preds_of (heap s predictions))
                     (golds_of (heap s golds))))%N ->
  get_str_preds_with_timeout str (preds_of (heap s predictions))
    (golds_of (heap s golds)) = Raise TimeoutError /\
  fst (run golds predictions s) =
    map_result (fun sc => (sc, EmptyList))
      (aggregation_function
         (scores_of (golds_of (heap s golds)) (preds_of (heap s predictions)))) /\
  (exists w, warnings (snd (run golds predictions s)) = w ++ [timeout_msg]) /\
  forall str' : Expr -> timed string,
    is_ok (get_str_preds_with_timeout str' (preds_of (heap s predictions))
             (golds_of (heap s golds))) = true ->
    scalar (sample_level_fn str' gold_extraction_target pred_extraction_target
              aggregation_function fallback_mode precision golds predictions s)
    = scalar (run golds predictions s).
Proof.
  intros Hgold Hslow.
  assert (Hraise : get_str_preds_with_timeout str (preds_of (heap s predictions))
                     (golds_of (heap s golds)) = Raise TimeoutError).
  { unfold get_str_preds_with_timeout. apply timeout_exceeded. exact Hslow. }
  apply gold_check_false in Hgold.
  destruct (render_failure_run str _ _ aggregation_function _ precision
              golds predictions s _ Hgold Hraise) as [Hout Hlog].
  split; [exact Hraise | split; [exact Hout | split; [exact Hlog|]]].
  intros str' _. rewrite !scalar_eq. reflexivity.
Qed.

(** C8: two calls on list objects with equal contents, under the same
    configuration, give the same scalar (or raise the same exception),
    however the rendering behaves in each and whatever was logged before;
    a call leaves every list object of its caller unchanged, and the only
    state it touches is the log, to which it appends. *)
Theorem score_deterministic_and_pure
    (str' : Expr -> timed string)
    (golds predictions golds' predictions' : ref) (s s' : state) :
  heap s golds = heap s' golds' ->
  heap s predictions = heap s' predictions' ->
  scalar (run golds predictions s) =
    scalar (sample_level_fn str' gold_extraction_target pred_extraction_target
              aggregation_function fallback_mode precision golds' predictions' s') /\
  heap (snd (run golds predictions s)) = heap s /\
  exists w, warnings (snd (run golds predictions s)) = warnings s ++ w.
Proof.
  intros Hg Hp. split; [|apply run_frame].
  rewrite !scalar_eq, <- Hg, <- Hp. reflexivity.
Qed.

End MetricFacts.

(** ** The built-in [max] on scores *)

Lemma fold_max_bits (rest : list float) (m : float) :
  (m = 0%float \/ m = 1%float) ->
  Forall (fun x => x = 0%float \/ x = 1%float) rest ->
  fold_left (fun m item => if PrimFloat.ltb m item then item else m) rest m = 0%float \/
  fold_left (fun m item => if PrimFloat.ltb m item then item else m) rest m = 1%float.
Proof.
  intros Hm Hrest. revert m Hm.
  induction Hrest as [|x rest Hx _ IH]; intros m Hm; cbn [fold_left].
  - exact Hm.
  - apply IH. destruct (PrimFloat.ltb m x); assumption.
Qed.

Lemma fold_max_zero (rest : list float) :
  Forall (fun x => x = 0%float) rest ->
  fold_left (fun m item => if PrimFloat.ltb m item then item else m) rest 0%float
  = 0%float.
Proof.
  induction 1 as [|x rest Hx _ IH]; cbn [fold_left]; [reflexivity|].
  subst x. exact IH.
Qed.

Lemma max_bits (xs : list float) (sc : float) :
  Forall (fun x => x = 0%float \/ x = 1%float) xs ->
  Py.max xs = Ok sc -> sc = 0%float \/ sc = 1%float.
Proof.
  intros Hxs Hmax. destruct xs as [|x rest]; [discriminate|].
  cbn [Py.max] in Hmax. injection Hmax as <-.
  inversion Hxs; subst. apply fold_max_bits; assumption.
Qed.

Lemma max_zero (xs : list float) :
  xs <> [] -> Forall (fun x => x = 0%float) xs -> Py.max xs = Ok 0%float.
Proof.
  intros Hne Hxs. destruct xs as [|x rest]; [congruence|].
  inversion Hxs; subst. cbn [Py.max]. now rewrite fold_max_zero.
Qed.

Section DefaultAggregation.

Context {P : Parser} {G : Grader Expr} {B : Builtins}.

Variable str : Expr -> timed string.

Variables (gold_extraction_target pred_extraction_target : list ExtractionTarget)
          (fallback_mode : FallbackMode)
          (precision : Z).

Abbreviation run_max :=
  (sample_level_fn str gold_extraction_target pred_extraction_target
                   default_aggregation_function fallback_mode precision).
Abbreviation golds_of' := (extracted fallback_mode gold_extraction_target).
Abbreviation preds_of' := (extracted fallback_mode pred_extraction_target).

Lemma pred_scores_bits (eg ep : list (list Expr)) :
  Forall (fun x => x = 0%float \/ x = 1%float) (pred_scores precision eg ep).
Proof.
  unfold pred_scores. apply Forall_forall. intros x Hin.
  apply in_map_iff in Hin. destruct Hin as [pred [<- _]].
  destruct (existsb _ eg); [right | left]; reflexivity.
Qed.

Lemma pred_scores_zero (eg ep : list (list Expr)) :
  (forall p, In p ep -> p = []) ->
  (forall gold, compare_gold_target gold [] precision = false) ->
  Forall (fun x => x = 0%float) (pred_scores precision eg ep).
Proof.
  intros Hep Hnil. unfold pred_scores. apply Forall_forall. intros x Hin.
  apply in_map_iff in Hin. destruct Hin as [pred [<- Hin]].
  rewrite (Hep pred Hin).
  replace (existsb (fun gold => compare_gold_target gold [] precision) eg) with false;
    [reflexivity|].
  symmetry. apply not_true_is_false. intros Hex.
  apply existsb_exists in Hex. destruct Hex as [g [_ Hg]].
  rewrite Hnil in Hg. discriminate.
Qed.

(** C7: under the default aggregation, a returned scalar is 0.0 or 1.0,
    and so lies between 0.0 and 1.0. *)
Theorem default_score_in_unit_interval
    (golds predictions : ref) (s s' : state) (sc : float) (d : str_preds_t) :
  run_max golds predictions s = (Ok (sc, d), s') ->
  (sc = 0%float \/ sc = 1%float) /\
  PrimFloat.leb 0%float sc = true /\ PrimFloat.leb sc 1%float = true.
Proof.
  intros Hrun. rewrite sample_level_fn_eq in Hrun. cbv zeta in Hrun.
  destruct (existsb _ (golds_of' _)); [discriminate|].
  unfold default_aggregation_function in Hrun.
  destruct (Py.max _) as [v|e] eqn:Hmax; [|discriminate].
  injection Hrun as -> _ _.
  apply max_bits in Hmax; [|apply pred_scores_bits].
  split; [exact Hmax|].
  destruct Hmax as [-> | ->]; split; reflexivity.
Qed.

(** C3: with at least one prediction, none of which yields a candidate, and
    every gold yielding one, the call under the default aggregation returns
    0.0 and raises nothing; it logs the warning about the predictions,
    followed at most by the warning of the rendering step.  The grader is
    taken to accept no gold against an empty candidate list. *)
Theorem no_prediction_candidate_scores_zero
    (golds predictions : ref) (s : state) :
  heap s predictions <> [] ->
  (forall pred, In pred (heap s predictions) ->
     extract_target_from_pred pred (get_extraction_regexes pred_extraction_target)
       fallback_mode = []) ->
  (forall gold, In gold (heap s golds) ->
     extract_target_from_pred gold (get_extraction_regexes gold_extraction_target)
       fallback_mode <> []) ->
  (forall gold, compare_gold_target gold [] precision = false) ->
  exists (d : str_preds_t) (s' : state),
    run_max golds predictions s = (Ok (0%float, d), s') /\
    heap s' = heap s /\
    let warning := no_pred_msg (heap s golds) (heap s predictions) in
    (warnings s' = warnings s ++ [warning] \/
     warnings s' = warnings s ++ [warning; timeout_msg]).
Proof.
  intros Hne Hpred Hgold Hnil.
  rewrite sample_level_fn_eq. cbv zeta.
  rewrite (gold_check_false _ _ _ Hgold).
  assert (Hall : forall p, In p (preds_of' (heap s predictions)) -> p = []).
  { intros p Hin. apply in_extracted in Hin. destruct Hin as [pred [Hin <-]].
    apply Hpred, Hin. }
  rewrite (proj2 (forallb_length_nil _) Hall).
  unfold default_aggregation_function.
  rewrite (max_zero (pred_scores precision _ _)).
  - destruct (get_str_preds_with_timeout _ _ _); cbn [fst snd heap warnings];
      do 2 eexists; (split; [reflexivity | split; [reflexivity|]]).
    + left. reflexivity.
    + right. rewrite <- app_assoc. reflexivity.
  - intros Hnilscores. apply (f_equal (@length float)) in Hnilscores.
    rewrite pred_scores_length in Hnilscores. unfold extracted in Hnilscores.
    rewrite length_map in Hnilscores.
    destruct (heap s predictions); [congruence | discriminate].
  - apply pred_scores_zero; assumption.
Qed.

(** C9: with an empty list of predictions and every gold yielding a
    candidate, the scalar outcome is the aggregation function applied to the
    empty list; the default aggregation then raises the [ValueError] of [max]
    on an empty argument instead of returning. *)
Theorem empty_predictions_aggregate_nothing
    (aggregation_function : list float -> result float)
    (golds predictions : ref) (s : state) :
  heap s predictions = [] ->
  (forall gold, In gold (heap s golds) ->
     extract_target_from_pred gold (get_extraction_regexes gold_extraction_target)
       fallback_mode <> []) ->
  scalar (sample_level_fn str gold_extraction_target pred_extraction_target
            aggregation_function fallback_mode precision golds predictions s)
    = aggregation_function [] /\
  fst (run_max golds predictions s) = Raise (ValueError max_empty_msg).
Proof.
  intros Hnil Hgold. apply gold_check_false in Hgold. split.
  - rewrite scalar_eq, Hgold, Hnil. reflexivity.
  - rewrite sample_level_fn_eq. cbv zeta. rewrite Hgold, Hnil. reflexivity.
Qed.

(** Under the default aggregation a call that returns was given at least
    one prediction. *)
Lemma default_score_needs_prediction (golds predictions : ref) (s : state) :
  is_ok (fst (run_max golds predictions s)) = true -> heap s predictions <> [].
Proof.
  intros Hok Hnil. rewrite sample_level_fn_eq in Hok. cbv zeta in Hok.
  rewrite Hnil in Hok.
  destruct (existsb _ (golds_of' _)); [discriminate|]. discriminate.
Qed.

End DefaultAggregation.

(** ** The statements on the small instance *)

Lemma sample_compare_no_target (gold : list Sample.expr) (precision : Z) :
  compare_gold_target gold [] precision = false.
Proof. induction gold as [|g gold IH]; [reflexivity | exact IH]. Qed.

Lemma sample_gold_has_candidate (gold : string) :
  In gold ["x^2"] ->
  extract_target_from_pred gold (get_extraction_regexes [LatexExtractionConfig])
    default_fallback_mode <> [].
Proof. intros [<- | []]. discriminate. Qed.

Lemma score_aggregates_matches_witness :
  exists scores : list float,
    Py.max scores = Ok 1%float /\ length scores = 2%nat.
Proof.
  destruct (score_aggregates_matches (P:=Sample.parser) Sample.quick_str
              [LatexExtractionConfig] [LatexExtractionConfig; ExprExtractionConfig]
              default_aggregation_function default_fallback_mode default_precision
              0%nat 1%nat
              (Sample.world ["\frac{1}{2}"; "x^2"] ["I don't know"; "0.5"])
              (Sample.world ["\frac{1}{2}"; "x^2"] ["I don't know"; "0.5"])
              1%float (Rendered ["number"; "x^2"] ["number"]))
    as [scores [Hagg [Hlen _]]].
  - vm_compute. reflexivity.
  - exists scores. split; [exact Hagg | exact Hlen].
Defined.

Lemma missing_gold_raises_witness :
  In "Friday" ["x^2"; "Friday"] /\
  Sample.extract "Friday" = [] /\
  Sample.metric Sample.quick_str 0%nat 1%nat (Sample.world ["x^2"; "Friday"] ["0.5"])
  = (Raise (MissingGoldExtractionError ["x^2"; "Friday"] ["0.5"]),
     Sample.world ["x^2"; "Friday"] ["0.5"]).
Proof.
  split; [right; left; reflexivity | split; [reflexivity|]].
  apply (missing_gold_raises (P:=Sample.parser) Sample.quick_str
           [LatexExtractionConfig] [LatexExtractionConfig; ExprExtractionConfig]
           default_aggregation_function default_fallback_mode default_precision
           0%nat 1%nat (Sample.world ["x^2"; "Friday"] ["0.5"]) "Friday").
  - right; left; reflexivity.
  - reflexivity.
Defined.

Lemma no_prediction_candidate_scores_zero_witness :
  exists (d : str_preds_t) (s' : state),
    Sample.metric Sample.quick_str 0%nat 1%nat
      (Sample.world ["x^2"] ["I don't know"; "no idea"])
    = (Ok (0%float, d), s').
Proof.
  destruct (no_prediction_candidate_scores_zero (P:=Sample.parser) Sample.quick_str
              [LatexExtractionConfig] [LatexExtractionConfig; ExprExtractionConfig]
              default_fallback_mode default_precision
              0%nat 1%nat (Sample.world ["x^2"] ["I don't know"; "no idea"]))
    as [d [s' [Hrun _]]].
  - discriminate.
  - intros pred [<- | [<- | []]]; reflexivity.
  - exact sample_gold_has_candidate.
  - intros gold. apply sample_compare_no_target.
  - exists d, s'. exact Hrun.
Defined.

Lemma render_timeout_keeps_score_witness :
  fst (Sample.metric Sample.slow_str 0%nat 1%nat (Sample.world ["x^2"] ["0.5"]))
  = Ok (0%float, EmptyList) /\
  scalar (Sample.metric Sample.quick_str 0%nat 1%nat (Sample.world ["x^2"] ["0.5"]))
  = scalar (Sample.metric Sample.slow_str 0%nat 1%nat (Sample.world ["x^2"] ["0.5"])).
Proof.
  destruct (render_timeout_keeps_score (P:=Sample.parser) Sample.slow_str
              [LatexExtractionConfig] [LatexExtractionConfig; ExprExtractionConfig]
              default_aggregation_function default_fallback_mode default_precision
              0%nat 1%nat (Sample.world ["x^2"] ["0.5"]))
    as [_ [Hout [_ Hscalar]]].
  - exact sample_gold_has_candidate.
  - reflexivity.
  - split; [exact Hout|]. apply Hscalar. reflexivity.
Defined.

Lemma default_score_in_unit_interval_witness :
  (1%float = 0%float \/ 1%float = 1%float) /\
  PrimFloat.leb 0%float 1%float = true /\ PrimFloat.leb 1%float 1%float = true.
Proof.
  apply (default_score_in_unit_interval (P:=Sample.parser) Sample.quick_str
           [LatexExtractionConfig] [LatexExtractionConfig; ExprExtractionConfig]
           default_fallback_mode default_precision
           0%nat 1%nat
           (Sample.world ["\frac{1}{2}"] ["0.5"]) (Sample.world ["\frac{1}{2}"] ["0.5"])
           1%float (Rendered ["number"] ["number"])).
  vm_compute. reflexivity.
Defined.

Lemma score_deterministic_and_pure_witness :
  scalar (Sample.metric Sample.quick_str 0%nat 1%nat
            (Sample.world ["\frac{1}{2}"] ["0.5"]))
  = scalar (Sample.metric Sample.slow_str 1%nat 0%nat
              (mkState (heap (Sample.world ["0.5"] ["\frac{1}{2}"])) ["earlier record"])).
Proof.
  apply (score_deterministic_and_pure (P:=Sample.parser) Sample.quick_str
           [LatexExtractionConfig] [LatexExtractionConfig; ExprExtractionConfig]
           default_aggregation_function default_fallback_mode default_precision
           Sample.slow_str 0%nat 1%nat 1%nat 0%nat
           (Sample.world ["\frac{1}{2}"] ["0.5"])
           (mkState (heap (Sample.world ["0.5"] ["\frac{1}{2}"])) ["earlier record"]));
    reflexivity.
Defined.

Lemma empty_predictions_aggregate_nothing_witness :
  fst (Sample.metric Sample.quick_str 0%nat 1%nat (Sample.world ["x^2"] []))
  = Raise (ValueError max_empty_msg).
Proof.
  apply (empty_predictions_aggregate_nothing (P:=Sample.parser) Sample.quick_str
           [LatexExtractionConfig] [LatexExtractionConfig; ExprExtractionConfig]
           default_fallback_mode default_precision default_aggregation_function
           0%nat 1%nat (Sample.world ["x^2"] [])).
  - reflexivity.
  - exact sample_gold_has_candidate.
Defined.

Lemma render_exception_caught_witness :
  fst (Sample.metric Sample.failing_str 0%nat 1%nat (Sample.world ["x^2"] ["x^2"]))
  = Ok (1%float, EmptyList).
Proof.
  destruct (render_exception_caught (P:=Sample.parser) Sample.failing_str
              [LatexExtractionConfig] [LatexExtractionConfig; ExprExtractionConfig]
              default_aggregation_function default_fallback_mode default_precision
              0%nat 1%nat (Sample.world ["x^2"] ["x^2"])
              (OtherException "RecursionError" "maximum recursion depth exceeded"))
    as [Hout _].
  - exact sample_gold_has_candidate.
  - reflexivity.
  - exact Hout.
Defined.


(** ** Further properties of the metric *)

Lemma float_zero_ne_one : 0%float <> 1%float.
Proof.
  intros H. apply (f_equal (fun x => PrimFloat.ltb x 1%float)) in H.
  vm_compute in H. discriminate.
Qed.

Lemma fold_max_from_one (rest : list float) :
  Forall (fun x => x = 0%float \/ x = 1%float) rest ->
  fold_left (fun m item => if PrimFloat.ltb m item then item else m) rest 1%float
  = 1%float.
Proof.
  induction 1 as [|x rest Hx _ IH]; cbn [fold_left]; [reflexivity|].
  destruct Hx as [-> | ->]; exact IH.
Qed.

Lemma fold_max_reaches_one (rest : list float) (m : float) :
  Forall (fun x => x = 0%float \/ x = 1%float) rest ->
  (m = 0%float \/ m = 1%float) ->
  In 1%float rest ->
  fold_left (fun m item => if PrimFloat.ltb m item then item else m) rest m
  = 1%float.
Proof.
  intros Hrest. revert m.
  induction Hrest as [|x rest Hx Hrest IH]; intros m Hm Hin; [destruct Hin|].
  cbn [fold_left]. destruct Hin as [-> | Hin].
  - destruct Hm as [-> | ->]; apply fold_max_from_one, Hrest.
  - apply IH; [|exact Hin].
    destruct Hx as [-> | ->], Hm as [-> | ->]; auto.
Qed.

Lemma max_bits_one (xs : list float) :
  Forall (fun x => x = 0%float \/ x = 1%float) xs ->
  In 1%float xs -> Py.max xs = Ok 1%float.
Proof.
  intros Hxs Hin. destruct xs as [|x rest]; [destruct Hin|].
  inversion Hxs as [|? ? Hx Hrest]; subst. cbn [Py.max]. f_equal.
  destruct Hin as [-> | Hin].
  - apply fold_max_from_one, Hrest.
  - apply fold_max_reaches_one; assumption.
Qed.

Lemma bits_one_or_zero (xs : list float) :
  Forall (fun x => x = 0%float \/ x = 1%float) xs ->
  In 1%float xs \/ Forall (fun x => x = 0%float) xs.
Proof.
  induction 1 as [|x rest Hx _ IH]; [right; constructor|].
  destruct Hx as [-> | ->]; [|left; left; reflexivity].
  destruct IH as [Hin | Hzero]; [left; right; exact Hin | right; constructor; auto].
Qed.

(** The built-in [max] on a list of scores: 1.0 when some score is 1.0,
    0.0 when the list is not empty and holds none. *)
Lemma max_bits_char (xs : list float) (a : float) :
  Forall (fun x => x = 0%float \/ x = 1%float) xs ->
  Py.max xs = Ok a ->
  (a = 1%float /\ In 1%float xs) \/
  (a = 0%float /\ xs <> [] /\ Forall (fun x => x = 0%float) xs).
Proof.
  intros Hxs Hmax. destruct (bits_one_or_zero xs Hxs) as [Hin | Hzero].
  - left. rewrite (max_bits_one xs Hxs Hin) in Hmax. split; congruence.
  - right. assert (Hne : xs <> []) by (intros ->; discriminate).
    rewrite (max_zero xs Hne Hzero) in Hmax. repeat split; congruence.
Qed.

Lemma zeros_hold_no_one (xs : list float) :
  Forall (fun x => x = 0%float) xs -> ~ In 1%float xs.
Proof.
  intros Hzero Hin. rewrite Forall_forall in Hzero.
  apply float_zero_ne_one. symmetry. apply Hzero, Hin.
Qed.

Lemma existsb_permutation {A} (f : A -> bool) (l l' : list A) :
  Permutation l l' -> existsb f l = existsb f l'.
Proof.
  induction 1 as [|x l l' _ IH|x y l|l l' l'' _ IH1 _ IH2]; cbn [existsb].
  - reflexivity.
  - now rewrite IH.
  - now rewrite !orb_assoc, (orb_comm (f y) (f x)).
  - congruence.
Qed.

Lemma tmap_all_ok {A B} (f : A -> timed B) (g : A -> B) (cost : A -> time)
    (xs : list A) :
  (forall a, f a = (Ok (g a), cost a)) ->
  tmap f xs = (Ok (map g xs), total_cost cost xs).
Proof.
  intros Hf. induction xs as [|x xs IH]; [reflexivity|].
  cbn [tmap map total_cost fold_right]. rewrite Hf. cbn [tbind]. rewrite IH.
  cbn [tbind tret]. fold (total_cost cost xs). now rewrite N.add_0_r.
Qed.

Lemma total_cost_app {E} (cost : E -> time) (xs ys : list E) :
  total_cost cost (xs ++ ys) = (total_cost cost xs + total_cost cost ys)%N.
Proof.
  induction xs as [|x xs IH]; [reflexivity|].
  cbn [app]. unfold total_cost in *. cbn [fold_right]. rewrite IH. lia.
Qed.

Section MetricExtras.

Context {P : Parser} {G : Grader Expr} {B : Builtins}.

Variable str : Expr -> timed string.

Variables (gold_extraction_target pred_extraction_target : list ExtractionTarget)
          (aggregation_function : list float -> result float)
          (fallback_mode : FallbackMode)
          (precision : Z).

Abbreviation run_x :=
  (sample_level_fn str gold_extraction_target pred_extraction_target
                   aggregation_function fallback_mode precision).
Abbreviation run_max_x :=
  (sample_level_fn str gold_extraction_target pred_extraction_target
                   default_aggregation_function fallback_mode precision).
Abbreviation golds_x := (extracted fallback_mode gold_extraction_target).
Abbreviation preds_x := (extracted fallback_mode pred_extraction_target).

Lemma gold_check_false_iff (gs : list string) :
  existsb (fun g => (length g =? 0)%nat) (golds_x gs) = false <->
  (forall gold, In gold gs ->
     extract_target_from_pred gold (get_extraction_regexes gold_extraction_target)
       fallback_mode <> []).
Proof.
  split; [|apply gold_check_false].
  intros Hex gold Hin Hnil.
  assert (Htrue : existsb (fun g => (length g =? 0)%nat) (golds_x gs) = true).
  { apply existsb_length_nil, in_extracted. exists gold. split; assumption. }
  rewrite Htrue in Hex. discriminate.
Qed.

Lemma get_str_preds_all_ok (render : Expr -> string) (cost : Expr -> time)
    (ep eg : list (list Expr)) :
  (forall e, str e = (Ok (render e), cost e)) ->
  get_str_preds str ep eg =
  (Ok (map render (concat eg), map render (concat ep)),
   total_cost cost (concat eg ++ concat ep)).
Proof.
  intros Hstr. unfold get_str_preds.
  rewrite !(tmap_all_ok str render cost) by exact Hstr.
  cbn [tbind tret]. rewrite total_cost_app, N.add_0_r. reflexivity.
Qed.

(** When every [str] call succeeds and together they stay within two
    seconds, the diagnostic component lists the rendered candidates of all
    golds, then those of all predictions, each flattened in input order, and
    the rendering step logs nothing. *)
Theorem rendering_lists_all_candidates
    (render : Expr -> string) (cost : Expr -> time)
    (golds predictions : ref) (s : state) :
  (forall gold, In gold (heap s golds) ->
     extract_target_from_pred gold (get_extraction_regexes gold_extraction_target)
       fallback_mode <> []) ->
  (forall e, str e = (Ok (render e), cost e)) ->
  (total_cost cost (concat (golds_x (heap s golds))
                      ++ concat (preds_x (heap s predictions))) <= 2 * 1000)%N ->
  fst (run_x golds predictions s) =
    map_result
      (fun sc => (sc, Rendered (map render (concat (golds_x (heap s golds))))
                               (map render (concat (preds_x (heap s predictions))))))
      (aggregation_function
         (pred_scores precision (golds_x (heap s golds)) (preds_x (heap s predictions))))
  /\ ~ In timeout_msg
         (skipn (length (warnings s)) (warnings (snd (run_x golds predictions s)))).
Proof.
  intros Hgold Hstr Hbudget. apply gold_check_false in Hgold.
  rewrite sample_level_fn_eq. cbv zeta. rewrite Hgold.
  unfold get_str_preds_with_timeout.
  rewrite timeout_within;
    rewrite (get_str_preds_all_ok render cost) by exact Hstr; [|exact Hbudget].
  cbn [fst snd].
  destruct (forallb _ _); destruct (aggregation_function _);
    cbn [fst snd map_result warnings]; (split; [reflexivity|]).
  1,2: rewrite skipn_app, skipn_all, Nat.sub_diag; cbn [skipn app];
       intros [Heq | []]; discriminate.
  1,2: rewrite skipn_all; intros [].
Qed.

(** A clean run touches nothing: when every gold and at least one
    prediction yield a candidate and the rendering succeeds within its
    budget, the state after the call is the state before it, so no record is
    logged. *)
Theorem clean_run_logs_nothing
    (render : Expr -> string) (cost : Expr -> time)
    (golds predictions : ref) (s : state) (pred : string) :
  (forall gold, In gold (heap s golds) ->
     extract_target_from_pred gold (get_extraction_regexes gold_extraction_target)
       fallback_mode <> []) ->
  In pred (heap s predictions) ->
  extract_target_from_pred pred (get_extraction_regexes pred_extraction_target)
    fallback_mode <> [] ->
  (forall e, str e = (Ok (render e), cost e)) ->
  (total_cost cost (concat (golds_x (heap s golds))
                      ++ concat (preds_x (heap s predictions))) <= 2 * 1000)%N ->
  snd (run_x golds predictions s) = s.
Proof.
  intros Hgold Hin Hpred Hstr Hbudget. apply gold_check_false in Hgold.
  rewrite sample_level_fn_eq. cbv zeta. rewrite Hgold.
  assert (Hall : forallb (fun p => (length p =? 0)%nat) (preds_x (heap s predictions))
                 = false).
  { apply not_true_is_false. intros Hall.
    apply Hpred. apply (proj1 (forallb_length_nil _) Hall).
    apply in_extracted. exists pred. split; [exact Hin | reflexivity]. }
  rewrite Hall. unfold get_str_preds_with_timeout.
  rewrite timeout_within;
    rewrite (get_str_preds_all_ok render cost) by exact Hstr; [|exact Hbudget].
  destruct (aggregation_function _); reflexivity.
Qed.

(** The order of the golds does not change a returned scalar, whatever the
    aggregation function. *)
Theorem gold_order_irrelevant
    (golds golds' predictions : ref) (s : state) (sc : float) :
  Permutation (heap s golds) (heap s golds') ->
  scalar (run_x golds predictions s) = Ok sc ->
  scalar (run_x golds' predictions s) = Ok sc.
Proof.
  intros Hperm. rewrite !scalar_eq.
  assert (Hp : Permutation (golds_x (heap s golds)) (golds_x (heap s golds'))).
  { unfold extracted. apply Permutation_map, Hperm. }
  rewrite <- (existsb_permutation _ _ _ Hp).
  destruct (existsb _ (golds_x (heap s golds))); [discriminate|].
  replace (pred_scores precision (golds_x (heap s golds')) (preds_x (heap s predictions)))
    with (pred_scores precision (golds_x (heap s golds)) (preds_x (heap s predictions)));
    [trivial|].
  unfold pred_scores. apply map_ext. intros p.
  now rewrite (existsb_permutation _ _ _ Hp).
Qed.

End MetricExtras.

Section DefaultAggregationExtras.

Context {P : Parser} {G : Grader Expr} {B : Builtins}.

Variable str : Expr -> timed string.

Variables (gold_extraction_target pred_extraction_target : list ExtractionTarget)
          (fallback_mode : FallbackMode)
          (precision : Z).

Abbreviation run_d :=
  (sample_level_fn str gold_extraction_target pred_extraction_target
                   default_aggregation_function fallback_mode precision).
Abbreviation golds_d := (extracted fallback_mode gold_extraction_target).
Abbreviation preds_d := (extracted fallback_mode pred_extraction_target).
Abbreviation scores_d := (pred_scores precision).

Lemma scalar_max_eq (golds predictions : ref) (s : state) (sc : float) :
  scalar (run_d golds predictions s) = Ok sc ->
  existsb (fun g => (length g =? 0)%nat) (golds_d (heap s golds)) = false /\
  Py.max (scores_d (golds_d (heap s golds)) (preds_d (heap s predictions))) = Ok sc.
Proof.
  rewrite scalar_eq. unfold default_aggregation_function.
  destruct (existsb _ (golds_d _)); [discriminate | auto].
Qed.

Lemma one_in_scores (eg ep : list (list Expr)) :
  In 1%float (scores_d eg ep) <->
  exists p g, In p ep /\ In g eg /\ compare_gold_target g p precision = true.
Proof.
  unfold pred_scores. rewrite in_map_iff. split.
  - intros [p [Hone Hin]].
    destruct (existsb _ eg) eqn:Hex.
    + apply existsb_exists in Hex. destruct Hex as [g [Hg Hcmp]].
      exists p, g. auto.
    + exfalso. apply float_zero_ne_one, Hone.
  - intros [p [g [Hp [Hg Hcmp]]]]. exists p. split; [|exact Hp].
    replace (existsb (fun gold => compare_gold_target gold p precision) eg) with true;
      [reflexivity|].
    symmetry. apply existsb_exists. exists g. auto.
Qed.

(** Under the default aggregation a returned scalar is 1.0 exactly when the
    grader accepts the candidates of some prediction against those of some
    gold: one matching prediction among many is enough. *)
Theorem default_score_one_iff_some_match
    (golds predictions : ref) (s : state) (sc : float) :
  scalar (run_d golds predictions s) = Ok sc ->
  (sc = 1%float <->
   exists pred gold,
     In pred (heap s predictions) /\ In gold (heap s golds) /\
     compare_gold_target
       (extract_target_from_pred gold
          (get_extraction_regexes gold_extraction_target) fallback_mode)
       (extract_target_from_pred pred
          (get_extraction_regexes pred_extraction_target) fallback_mode)
       precision = true).
Proof.
  intros Hrun. apply scalar_max_eq in Hrun. destruct Hrun as [_ Hmax].
  assert (Hone : sc = 1%float <->
                 In 1%float (scores_d (golds_d (heap s golds))
                                      (preds_d (heap s predictions)))).
  { split.
    - intros ->.
      destruct (max_bits_char _ _ (pred_scores_bits precision _ _) Hmax)
        as [[_ Hin] | [Hzero _]]; [exact Hin|].
      exfalso. apply float_zero_ne_one. now symmetry.
    - intros Hin.
      rewrite (max_bits_one _ (pred_scores_bits precision _ _) Hin) in Hmax.
      congruence. }
  rewrite Hone, one_in_scores. split.
  - intros [p [g [Hp [Hg Hcmp]]]].
    apply in_extracted in Hp, Hg.
    destruct Hp as [pred [Hpred <-]], Hg as [gold [Hgold <-]].
    exists pred, gold. auto.
  - intros [pred [gold [Hpred [Hgold Hcmp]]]].
    eexists. eexists. split; [|split; [|exact Hcmp]].
    + apply in_extracted. exists pred. auto.
    + apply in_extracted. exists gold. auto.
Qed.

Lemma max_bits_app (xs ys : list float) (a b : float) :
  Forall (fun x => x = 0%float \/ x = 1%float) xs ->
  Forall (fun x => x = 0%float \/ x = 1%float) ys ->
  Py.max xs = Ok a -> Py.max ys = Ok b ->
  Py.max (xs ++ ys) = Py.max [a; b].
Proof.
  intros Hxs Hys Ha Hb.
  assert (Hxy : Forall (fun x => x = 0%float \/ x = 1%float) (xs ++ ys))
    by (apply Forall_app; auto).
  destruct (max_bits_char xs a Hxs Ha) as [[-> Hin] | [-> [Hne Hzx]]].
  - rewrite (max_bits_one _ Hxy) by (apply in_or_app; auto).
    destruct (max_bits_char ys b Hys Hb) as [[-> _] | [-> _]]; reflexivity.
  - destruct (max_bits_char ys b Hys Hb) as [[-> Hin] | [-> [_ Hzy]]].
    + rewrite (max_bits_one _ Hxy) by (apply in_or_app; auto). reflexivity.
    + rewrite max_zero; [reflexivity | | apply Forall_app; auto].
      destruct xs; [congruence | discriminate].
Qed.

(** Scoring the concatenation of two lists of predictions gives the larger
    of the two scalars the lists obtain separately. *)
Theorem default_score_of_concatenation
    (golds preds1 preds2 preds12 : ref) (s : state) (a b : float) :
  heap s preds12 = heap s preds1 ++ heap s preds2 ->
  scalar (run_d golds preds1 s) = Ok a ->
  scalar (run_d golds preds2 s) = Ok b ->
  scalar (run_d golds preds12 s) = Py.max [a; b].
Proof.
  intros Happ Ha Hb.
  apply scalar_max_eq in Ha, Hb. destruct Ha as [Hgold Ha], Hb as [_ Hb].
  rewrite scalar_eq, Hgold, Happ. unfold default_aggregation_function.
  unfold extracted at 2. rewrite map_app. unfold pred_scores at 1. rewrite map_app.
  apply max_bits_app; try assumption; apply pred_scores_bits.
Qed.

(** Under the default aggregation the order of the predictions does not
    change a returned scalar. *)
Theorem default_score_prediction_order_irrelevant
    (golds predictions predictions' : ref) (s : state) (sc : float) :
  Permutation (heap s predictions) (heap s predictions') ->
  scalar (run_d golds predictions s) = Ok sc ->
  scalar (run_d golds predictions' s) = Ok sc.
Proof.
  intros Hperm Hrun. apply scalar_max_eq in Hrun. destruct Hrun as [Hgold Hmax].
  rewrite scalar_eq, Hgold. unfold default_aggregation_function.
  assert (Hp : Permutation
                 (scores_d (golds_d (heap s golds)) (preds_d (heap s predictions)))
                 (scores_d (golds_d (heap s golds)) (preds_d (heap s predictions')))).
  { unfold pred_scores, extracted. do 2 apply Permutation_map. exact Hperm. }
  destruct (max_bits_char _ _ (pred_scores_bits precision _ _) Hmax)
    as [[-> Hin] | [-> [Hne Hzero]]].
  - apply max_bits_one; [apply pred_scores_bits|].
    apply (Permutation_in _ Hp), Hin.
  - apply max_zero.
    + intros Hnil. rewrite Hnil in Hp. apply Permutation_sym, Permutation_nil in Hp.
      contradiction.
    + apply (Permutation_Forall Hp), Hzero.
Qed.

(** An empty list of golds is no error: with at least one prediction the
    call returns 0.0 under the default aggregation, whatever the predictions
    and the grader are. *)
Theorem no_gold_scores_zero (golds predictions : ref) (s : state) :
  heap s golds = [] ->
  heap s predictions <> [] ->
  scalar (run_d golds predictions s) = Ok 0%float.
Proof.
  intros Hnil Hne. rewrite scalar_eq, Hnil. cbn [extracted map existsb].
  unfold default_aggregation_function. apply max_zero.
  - intros Hscores. apply (f_equal (@length float)) in Hscores.
    rewrite pred_scores_length in Hscores. unfold extracted in Hscores.
    rewrite length_map in Hscores.
    destruct (heap s predictions); [congruence | discriminate].
  - unfold pred_scores. apply Forall_forall. intros x Hin.
    apply in_map_iff in Hin. destruct Hin as [p [<- _]]. reflexivity.
Qed.

(** Under the default aggregation the call returns exactly when every gold
    yields a candidate and there is at least one prediction; in every other
    case it raises. *)
Theorem default_score_returns_iff (golds predictions : ref) (s : state) :
  is_ok (fst (run_d golds predictions s)) = true <->
  (forall gold, In gold (heap s golds) ->
     extract_target_from_pred gold (get_extraction_regexes gold_extraction_target)
       fallback_mode <> []) /\
  heap s predictions <> [].
Proof.
  rewrite <- (gold_check_false_iff gold_extraction_target fallback_mode).
  rewrite sample_level_fn_eq. cbv zeta.
  destruct (existsb _ (golds_d _)).
  - cbn. split; [discriminate | intros [H _]; discriminate].
  - unfold default_aggregation_function.
    destruct (heap s predictions) as [|p ps] eqn:Hps.
    + cbn. split; [discriminate | intros [_ H]; congruence].
    + cbn [extracted map pred_scores Py.max fst is_ok].
      split; [intros _; split; [reflexivity | discriminate] | reflexivity].
Qed.

End DefaultAggregationExtras.

(** ** The dataset filter and the prompt function *)

Lemma lstrip_has_nonspace (s : string) :
  has_nonspace (lstrip s) = has_nonspace s.
Proof.
  induction s as [|c s IH]; [reflexivity|].
  cbn [lstrip]. destruct (isspace c) eqn:Hc; [|reflexivity].
  rewrite IH. unfold has_nonspace. cbn [list_ascii_of_string existsb].
  rewrite Hc. reflexivity.
Qed.

Lemma rstrip_empty_iff (s : string) :
  rstrip s = EmptyString <-> has_nonspace s = false.
Proof.
  induction s as [|c s IH]; [split; reflexivity|].
  unfold has_nonspace in *. cbn [rstrip list_ascii_of_string existsb].
  destruct (rstrip s) as [|c' r].
  - rewrite (proj1 IH eq_refl), orb_false_r.
    destruct (isspace c); split; intros H; try reflexivity; discriminate.
  - split; [discriminate|]. intros H. apply orb_false_elim in H.
    destruct H as [_ H]. apply IH in H. discriminate.
Qed.

(** [len(s.strip()) > 0] holds exactly when [s] has a character that is not
    whitespace. *)
Lemma strip_length_positive (s : string) :
  (0 <? String.length (strip s))%nat = has_nonspace s.
Proof.
  unfold strip. rewrite <- (lstrip_has_nonspace s).
  destruct (rstrip (lstrip s)) as [|c r] eqn:Hr.
  - symmetry. apply rstrip_empty_iff, Hr.
  - cbn. symmetry. apply not_false_is_true. intros Hf.
    apply rstrip_empty_iff in Hf. congruence.
Qed.

(** The filter keeps a row exactly when it has both keys and neither the
    problem nor the solution is blank. *)
Theorem hf_filter_accepts_iff (x : row) :
  hf_filter x = Ok true <->
  exists problem solution,
    x "problem" = Some problem /\ x "solution" = Some solution /\
    has_nonspace problem = true /\ has_nonspace solution = true.
Proof.
  unfold hf_filter, getitem. split.
  - destruct (x "problem") as [problem|]; [|discriminate].
    rewrite strip_length_positive.
    destruct (has_nonspace problem) eqn:Hp; [|discriminate].
    destruct (x "solution") as [solution|]; [|discriminate].
    rewrite strip_length_positive. intros H. injection H as H.
    exists problem, solution. auto.
  - intros [problem [solution [-> [-> [Hp Hs]]]]].
    rewrite !strip_length_positive, Hp, Hs. reflexivity.
Qed.

(** The filter raises only a [KeyError]: for ["problem"] when that key is
    missing, for ["solution"] when it is missing and the problem is not
    blank.  A row with a blank problem is rejected without its solution being
    looked up. *)
Theorem hf_filter_raises_iff (x : row) (e : exn) :
  hf_filter x = Raise e <->
  (x "problem" = None /\ e = KeyError "problem") \/
  (exists problem, x "problem" = Some problem /\ has_nonspace problem = true /\
                   x "solution" = None /\ e = KeyError "solution").
Proof.
  unfold hf_filter, getitem. split.
  - destruct (x "problem") as [problem|].
    + rewrite strip_length_positive.
      destruct (has_nonspace problem) eqn:Hp; [|discriminate].
      destruct (x "solution"); [discriminate|].
      intros H. injection H as <-. right. exists problem. auto.
    + intros H. injection H as <-. left. auto.
  - intros [[-> ->] | [problem [-> [Hp [-> ->]]]]]; [reflexivity|].
    rewrite strip_length_positive, Hp. reflexivity.
Qed.

Lemma length_append (s t : string) :
  String.length (s ++ t)%string = (String.length s + String.length t)%nat.
Proof. induction s as [|c s IH]; cbn; [reflexivity | now rewrite IH]. Qed.

Lemma append_inv_tail (s s' t : string) :
  (s ++ t)%string = (s' ++ t)%string -> s = s'.
Proof.
  revert s'. induction s as [|c s IH]; intros [|c' s'] H.
  - reflexivity.
  - apply (f_equal String.length) in H. rewrite !length_append in H.
    cbn in H. lia.
  - apply (f_equal String.length) in H. rewrite !length_append in H.
    cbn in H. lia.
  - cbn in H. injection H as -> H. f_equal. apply IH, H.
Qed.

Lemma append_inv_head (s t t' : string) :
  (s ++ t)%string = (s ++ t')%string -> t = t'.
Proof.
  induction s as [|c s IH]; cbn; intros H; [exact H|].
  injection H as H. apply IH, H.
Qed.

(** What a call that returns has read and built. *)
Lemma math_prompt_function_ok
    (x : row) (task_name : string) (d : Doc) (out : list row) :
  math_prompt_function x task_name = (Ok d, out) ->
  exists problem solution,
    x "problem" = Some problem /\ x "solution" = Some solution /\
    d = mkDoc ("Question: " ++ problem ++ newline ++ "Step-by-Step Answer:")%string
              [solution] 0 /\
    out = [x].
Proof.
  unfold math_prompt_function, getitem.
  destruct (x "problem") as [p|]; [|discriminate].
  destruct (x "solution") as [sol|]; [|discriminate].
  intros H. exists p, sol. repeat split; congruence.
Qed.

(** The prompt keeps the row apart: two rows that lead to the same [Doc]
    have the same problem and the same solution. *)
Theorem math_prompt_function_injective
    (x x' : row) (task_name task_name' : string) (d : Doc) (out out' : list row) :
  math_prompt_function x task_name = (Ok d, out) ->
  math_prompt_function x' task_name' = (Ok d, out') ->
  x "problem" = x' "problem" /\ x "solution" = x' "solution".
Proof.
  intros H H'.
  apply math_prompt_function_ok in H, H'.
  destruct H as [p [sol [Hp [Hs [Hd _]]]]], H' as [p' [sol' [Hp' [Hs' [Hd' _]]]]].
  rewrite Hp, Hs, Hp', Hs'. rewrite Hd in Hd'.
  assert (Hq : ("Question: " ++ p ++ newline ++ "Step-by-Step Answer:")%string
               = ("Question: " ++ p' ++ newline ++ "Step-by-Step Answer:")%string)
    by congruence.
  assert (Hc : [sol] = [sol']) by congruence.
  apply append_inv_head, append_inv_tail in Hq.
  split; congruence.
Qed.


(** A row the filter keeps is a row the prompt function accepts: the call
    returns a [Doc] whose single choice is the solution of the row, which is
    not blank. *)
Theorem filtered_row_has_prompt (x : row) (task_name : string) :
  hf_filter x = Ok true ->
  exists (d : Doc) (solution : string),
    math_prompt_function x task_name = (Ok d, [x]) /\
    choices d = [solution] /\ has_nonspace solution = true /\ gold_index d = 0%Z.
Proof.
  intros H. apply hf_filter_accepts_iff in H.
  destruct H as [problem [solution [Hp [Hs [_ Hns]]]]].
  unfold math_prompt_function, getitem. rewrite Hp, Hs.
  eexists. exists solution. repeat split. exact Hns.
Qed.

(** ** The further statements on the small instance *)

Lemma sample_golds_have_candidates (gold : string) :
  In gold ["\frac{1}{2}"; "x^2"] ->
  extract_target_from_pred gold (get_extraction_regexes [LatexExtractionConfig])
    default_fallback_mode <> [].
Proof. intros [<- | [<- | []]]; discriminate. Qed.

Lemma rendering_lists_all_candidates_witness :
  fst (Sample.metric Sample.quick_str 0%nat 1%nat
         (Sample.world ["\frac{1}{2}"; "x^2"] ["I don't know"; "0.5"]))
  = Ok (1%float, Rendered ["number"; "x^2"] ["number"]).
Proof.
  destruct (rendering_lists_all_candidates (P:=Sample.parser) Sample.quick_str
              [LatexExtractionConfig] [LatexExtractionConfig; ExprExtractionConfig]
              default_aggregation_function default_fallback_mode default_precision
              Sample.render (fun _ => 1%N) 0%nat 1%nat
              (Sample.world ["\frac{1}{2}"; "x^2"] ["I don't know"; "0.5"]))
    as [Hout _].
  - exact sample_golds_have_candidates.
  - reflexivity.
  - vm_compute. discriminate.
  - exact Hout.
Defined.

Lemma clean_run_logs_nothing_witness :
  snd (Sample.metric Sample.quick_str 0%nat 1%nat
         (Sample.world ["\frac{1}{2}"; "x^2"] ["I don't know"; "0.5"]))
  = Sample.world ["\frac{1}{2}"; "x^2"] ["I don't know"; "0.5"].
Proof.
  apply (clean_run_logs_nothing (P:=Sample.parser) Sample.quick_str
           [LatexExtractionConfig] [LatexExtractionConfig; ExprExtractionConfig]
           default_aggregation_function default_fallback_mode default_precision
           Sample.render (fun _ => 1%N) 0%nat 1%nat
           (Sample.world ["\frac{1}{2}"; "x^2"] ["I don't know"; "0.5"]) "0.5").
  - exact sample_golds_have_candidates.
  - right; left; reflexivity.
  - discriminate.
  - reflexivity.
  - vm_compute. discriminate.
Defined.

Lemma gold_order_irrelevant_witness :
  scalar (Sample.metric Sample.quick_str 2%nat 1%nat
            (mkState (fun r => match r with
                               | 0%nat => ["\frac{1}{2}"; "x^2"]
                               | 1%nat => ["0.5"]
                               | _ => ["x^2"; "\frac{1}{2}"]
                               end) []))
  = Ok 1%float.
Proof.
  apply (gold_order_irrelevant (P:=Sample.parser) Sample.quick_str
           [LatexExtractionConfig] [LatexExtractionConfig; ExprExtractionConfig]
           default_aggregation_function default_fallback_mode default_precision
           0%nat 2%nat 1%nat).
  - apply perm_swap.
  - reflexivity.
Defined.

Lemma default_score_one_iff_some_match_witness :
  exists pred gold,
    In pred ["I don't know"; "0.5"] /\ In gold ["\frac{1}{2}"; "x^2"] /\
    compare_gold_target (Sample.extract gold) (Sample.extract pred) default_precision
    = true.
Proof.
  apply (default_score_one_iff_some_match (P:=Sample.parser) Sample.quick_str
           [LatexExtractionConfig] [LatexExtractionConfig; ExprExtractionConfig]
           default_fallback_mode default_precision 0%nat 1%nat
           (Sample.world ["\frac{1}{2}"; "x^2"] ["I don't know"; "0.5"]) 1%float).
  - reflexivity.
  - reflexivity.
Defined.

Lemma default_score_of_concatenation_witness :
  scalar (Sample.metric Sample.quick_str 0%nat 3%nat
            (mkState (fun r => match r with
                               | 0%nat => ["\frac{1}{2}"]
                               | 1%nat => ["I don't know"]
                               | 2%nat => ["2"; "0.5"]
                               | _ => ["I don't know"; "2"; "0.5"]
                               end) []))
  = Py.max [0%float; 1%float].
Proof.
  apply (default_score_of_concatenation (P:=Sample.parser) Sample.quick_str
           [LatexExtractionConfig] [LatexExtractionConfig; ExprExtractionConfig]
           default_fallback_mode default_precision 0%nat 1%nat 2%nat 3%nat);
    reflexivity.
Defined.

Lemma default_score_prediction_order_irrelevant_witness :
  scalar (Sample.metric Sample.quick_str 0%nat 2%nat
            (mkState (fun r => match r with
                               | 0%nat => ["\frac{1}{2}"]
                               | 1%nat => ["2"; "0.5"]
                               | _ => ["0.5"; "2"]
                               end) []))
  = Ok 1%float.
Proof.
  apply (default_score_prediction_order_irrelevant (P:=Sample.parser) Sample.quick_str
           [LatexExtractionConfig] [LatexExtractionConfig; ExprExtractionConfig]
           default_fallback_mode default_precision 0%nat 1%nat 2%nat).
  - apply perm_swap.
  - reflexivity.
Defined.

Lemma no_gold_scores_zero_witness :
  scalar (Sample.metric Sample.quick_str 0%nat 1%nat (Sample.world [] ["0.5"]))
  = Ok 0%float.
Proof.
  apply (no_gold_scores_zero (P:=Sample.parser) Sample.quick_str
           [LatexExtractionConfig] [LatexExtractionConfig; ExprExtractionConfig]
           default_fallback_mode default_precision 0%nat 1%nat
           (Sample.world [] ["0.5"])).
  - reflexivity.
  - discriminate.
Defined.

Lemma math_prompt_function_injective_witness :
  row_of [("problem", "1+1?"); ("solution", "2")] "problem"
  = row_of [("solution", "2"); ("problem", "1+1?"); ("level", "1")] "problem" /\
  row_of [("problem", "1+1?"); ("solution", "2")] "solution"
  = row_of [("solution", "2"); ("problem", "1+1?"); ("level", "1")] "solution".
Proof.
  eapply (math_prompt_function_injective
            (row_of [("problem", "1+1?"); ("solution", "2")])
            (row_of [("solution", "2"); ("problem", "1+1?"); ("level", "1")])
            "algebra" "geometry"); reflexivity.
Defined.


Lemma filtered_row_has_prompt_witness :
  exists (d : Doc) (solution : string),
    math_prompt_function (row_of [("problem", " 1+1? "); ("solution", "2")]) "algebra"
    = (Ok d, [row_of [("problem", " 1+1? "); ("solution", "2")]]) /\
    choices d = [solution] /\ has_nonspace solution = true /\ gold_index d = 0%Z.
Proof.
  apply (filtered_row_has_prompt
           (row_of [("problem", " 1+1? "); ("solution", "2")]) "algebra").
  reflexivity.
Defined.
